(** * FlamesBlue AI Builder backend: a shallow embedding of [main.py]

    The handlers of the FastAPI application are embedded as Rocq functions:
    - [list_functions]   (GET /api/functions),
    - [generate_site]    (POST /api/generate),
    - [test_database]    (GET /test),
    together with the small part of Python's [str] and [dict] behaviour they
    rely on.  Python strings are sequences of Unicode code points, dicts are
    finite maps, a raised exception is the left injection of a sum. *)

From Stdlib Require Import List ZArith NArith Lia Bool Ascii String Decimal.
From stdpp Require Import base gmap strings.
Import ListNotations.

Local Open Scope N_scope.

(** ** Python strings *)

(** A character is a Unicode code point; [len], slicing and [strip] of a
    Python [str] all work on code points. *)
Definition char := N.
Definition pystr := list char.

Fixpoint bytes_of (s : string) : list N :=
  match s with
  | EmptyString => []
  | String a t => N_of_ascii a :: bytes_of t
  end.

(** The literals of this file are UTF-8 text; [utf8_decode] turns their bytes
    into code points (the source has a few characters outside ASCII). *)
Fixpoint utf8_decode (bs : list N) : pystr :=
  match bs with
  | [] => []
  | b0 :: t0 =>
    if b0 <? 128 then b0 :: utf8_decode t0
    else match t0 with
    | [] => []
    | b1 :: t1 =>
      if b0 <? 224 then ((b0 - 192) * 64 + (b1 - 128)) :: utf8_decode t1
      else match t1 with
      | [] => []
      | b2 :: t2 =>
        if b0 <? 240
        then ((b0 - 224) * 4096 + (b1 - 128) * 64 + (b2 - 128)) :: utf8_decode t2
        else match t2 with
        | [] => []
        | b3 :: t3 =>
          ((b0 - 240) * 262144 + (b1 - 128) * 4096 + (b2 - 128) * 64 + (b3 - 128))
            :: utf8_decode t3
        end
      end
    end
  end.

(** A Python string literal. *)
Definition lit (s : string) : pystr := utf8_decode (bytes_of s).

(** The text of an f-string template.  The templates of [generate_site] are
    full of double quotes (backslash-escaped in the source); here they are written
    with the apostrophe, which the templates never use, and [tpl] puts the
    double quote (code point 34) back.  The doubled braces of the f-string
    stand for single braces and are written as such. *)
Definition tpl (s : string) : pystr :=
  map (fun c => if c =? 39 then 34 else c) (lit s).

(** [str.isspace] for one character (CPython's [_PyUnicode_IsWhitespace]). *)
Definition py_isspace (c : char) : bool :=
  ((9 <=? c) && (c <=? 13)) || ((28 <=? c) && (c <=? 32))
  || (c =? 133) || (c =? 160) || (c =? 5760)
  || ((8192 <=? c) && (c <=? 8202))
  || (c =? 8232) || (c =? 8233) || (c =? 8239) || (c =? 8287) || (c =? 12288).

Fixpoint lstrip_by (f : char -> bool) (s : pystr) : pystr :=
  match s with
  | [] => []
  | c :: t => if f c then lstrip_by f t else s
  end.

Definition rstrip_by (f : char -> bool) (s : pystr) : pystr :=
  rev (lstrip_by f (rev s)).

(** [s.strip()] *)
Definition strip (s : pystr) : pystr :=
  rstrip_by py_isspace (lstrip_by py_isspace s).

(** [s.rstrip(chars)] *)
Definition rstrip (chars s : pystr) : pystr :=
  rstrip_by (fun c => existsb (N.eqb c) chars) s.

Fixpoint digits (d : Decimal.uint) : pystr :=
  match d with
  | Nil => []
  | D0 d => 48 :: digits d
  | D1 d => 49 :: digits d
  | D2 d => 50 :: digits d
  | D3 d => 51 :: digits d
  | D4 d => 52 :: digits d
  | D5 d => 53 :: digits d
  | D6 d => 54 :: digits d
  | D7 d => 55 :: digits d
  | D8 d => 56 :: digits d
  | D9 d => 57 :: digits d
  end.

(** [str(z)] for an [int], as the f-string renders [{i+1}]. *)
Definition py_str_int (z : Z) : pystr :=
  match Z.to_int z with
  | Decimal.Pos d => digits d
  | Decimal.Neg d => 45 :: digits d
  end.

(** [range(n)] *)
Definition py_range (n : Z) : list Z := map Z.of_nat (seq 0 (Z.to_nat n)).

(** ** Values *)

(** The Python values that end up in the dicts the handlers return. *)
Inductive pyval :=
| VNone
| VBool (b : bool)
| VInt (z : Z)
| VStr (s : pystr)
| VList (l : list pystr).

Definition opt_str (o : option pystr) : pyval :=
  match o with
  | None => VNone
  | Some s => VStr s
  end.

(** What an f-string writes for an [Optional[str]] field: the text itself,
    and [None] for the missing value. *)
Definition format_value (o : option pystr) : pystr :=
  match o with
  | None => lit "None"
  | Some s => s
  end.

(** ** The request and response models *)

(** [GenerateRequest] after validation; [color] and [sections] are
    [Optional], so an explicit null reaches the handler as [None]. *)
Record GenerateRequest := {
  prompt : pystr;
  color : option pystr;
  sections : option Z
}.

(** The defaults pydantic fills in for absent fields. *)
Definition default_color : option pystr := Some (lit "indigo").
Definition default_sections : option Z := Some 3%Z.

(** The [Field(3, ge=1, le=6)] constraint of [sections]. *)
Definition sections_ok (o : option Z) : bool :=
  match o with
  | None => true
  | Some n => (1 <=? n)%Z && (n <=? 6)%Z
  end.

Record GenerateResponse := {
  html : pystr;
  meta : gmap string pyval
}.

Record HTTPException := {
  status_code : Z;
  detail : pystr
}.

(** ** GET /api/functions *)

Record Capability := {
  id : pystr;
  name : pystr;
  description : pystr;
  free : bool
}.

Definition list_functions : gmap string (list Capability) :=
  let functions := [
    {| id := lit "prompt-to-landing";
       name := lit "Prompt → Landing Page";
       description := lit "Generate a responsive landing page layout from a short idea.";
       free := true |};
    {| id := lit "brand-colors";
       name := lit "Brand Colors";
       description := lit "Apply a preset accent color across buttons, badges, and highlights.";
       free := true |};
    {| id := lit "hero-3d";
       name := lit "3D Hero Animation";
       description := lit "Drop in an interactive Spline animation for a futuristic hero.";
       free := true |};
    {| id := lit "feature-grid";
       name := lit "Feature Grid";
       description := lit "Auto-generate a clean features grid with icons and copy.";
       free := true |};
    {| id := lit "export";
       name := lit "One-Click Export";
       description := lit "Copy the generated HTML instantly.";
       free := true |}
  ] in
  {[ "functions"%string := functions ]}.

(** ** POST /api/generate *)

(** [req.sections or 3]: [None] and [0] are falsy. *)
Definition sections_or (o : option Z) (d : Z) : Z :=
  match o with
  | None => d
  | Some 0%Z => d
  | Some n => n
  end.

(** Lines 90-92: the title shown in the hero heading. *)
Definition make_title (p : pystr) : pystr :=
  let title := rstrip (lit ".") (firstn 80 p) in
  if (length title <? length p)%nat then title ++ lit "..." else title.

(** Lines 97-104: the block appended for index [i] of the loop. *)
Definition section_block (p : pystr) (i : Z) : pystr :=
  tpl "
        <section class='py-16 border-t border-white/10'>
          <div class='max-w-6xl mx-auto px-6'>
            <h3 class='text-2xl font-semibold text-white mb-4'>Section "
  ++ py_str_int (i + 1)
  ++ tpl "</h3>
            <p class='text-slate-300 leading-relaxed'>"
  ++ p
  ++ tpl " — auto-generated content block "
  ++ py_str_int (i + 1)
  ++ tpl " with responsive layout and accessible typography. Customize freely.</p>
          </div>
        </section>
        ".

(** Lines 95-104: the loop over [range(sections)]. *)
Definition section_blocks (p : pystr) (n : Z) : list pystr :=
  map (section_block p) (py_range n).

(** [''.join(blocks)] *)
Definition join (blocks : list pystr) : pystr := concat blocks.

(** Lines 106-156: the page. *)
Definition page (c : option pystr) (title : pystr) (blocks : list pystr) : pystr :=
  tpl "<!DOCTYPE html>
<html lang='en'>
<head>
  <meta charset='UTF-8' />
  <meta name='viewport' content='width=device-width, initial-scale=1.0' />
  <title>AI Generated – FlamesBlue</title>
  <script src='https://cdn.tailwindcss.com'></script>
  <link rel='preconnect' href='https://fonts.googleapis.com' />
  <link rel='preconnect' href='https://fonts.gstatic.com' crossorigin />
  <link href='https://fonts.googleapis.com/css2?family=Inter:wght@400;600;700&display=swap' rel='stylesheet' />
  <style>body{font-family:Inter,system-ui,-apple-system,Segoe UI,Roboto,Helvetica,Arial} .gradient{background: radial-gradient(1200px 800px at 50% 10%, rgba(99,102,241,.25), transparent), radial-gradient(1000px 600px at 80% 20%, rgba(56,189,248,.2), transparent), radial-gradient(800px 600px at 20% 20%, rgba(244,114,182,.15), transparent)} .glass{backdrop-filter:saturate(140%) blur(8px); background:rgba(2,6,23,.55); border:1px solid rgba(255,255,255,.08);}</style>
</head>
<body class='min-h-screen gradient bg-slate-950 text-slate-100'>
  <header class='sticky top-0 z-40'>
    <div class='max-w-6xl mx-auto px-6 py-4 flex items-center justify-between glass rounded-b-xl'>
      <div class='flex items-center gap-3'>
        <div class='w-8 h-8 rounded-lg bg-"
  ++ format_value c
  ++ tpl "-500/20 border border-"
  ++ format_value c
  ++ tpl "-500/30'></div>
        <span class='font-semibold'>FlamesBlue AI</span>
      </div>
      <a href='#' class='px-4 py-2 rounded-lg bg-"
  ++ format_value c
  ++ tpl "-500 text-white hover:bg-"
  ++ format_value c
  ++ tpl "-400 transition'>Get Started</a>
    </div>
  </header>

  <main>
    <section class='pt-16 pb-12'>
      <div class='max-w-6xl mx-auto px-6 grid md:grid-cols-2 gap-10 items-center'>
        <div>
          <h1 class='text-4xl md:text-5xl font-bold leading-tight'>"
  ++ title
  ++ tpl "</h1>
          <p class='mt-4 text-slate-300'>A modern, responsive page created with FlamesBlue AI. Edit the text, change the colors, and export immediately.</p>
          <div class='mt-6 flex gap-3'>
            <a class='px-5 py-3 rounded-lg bg-"
  ++ format_value c
  ++ tpl "-500 text-white hover:bg-"
  ++ format_value c
  ++ tpl "-400 transition'>Primary action</a>
            <a class='px-5 py-3 rounded-lg border border-white/10 hover:border-white/20 transition'>Secondary</a>
          </div>
        </div>
        <div class='glass rounded-2xl p-6'>
          <div class='aspect-video rounded-xl bg-black/30 border border-white/10 flex items-center justify-center text-slate-400'>Media</div>
        </div>
      </div>
    </section>

    "
  ++ join blocks
  ++ tpl "

    <footer class='py-12 border-t border-white/10 mt-8'>
      <div class='max-w-6xl mx-auto px-6 flex items-center justify-between'>
        <span class='text-sm text-slate-400'>Generated with FlamesBlue AI</span>
        <a class='text-sm text-"
  ++ format_value c
  ++ tpl "-400 hover:text-"
  ++ format_value c
  ++ tpl "-300' href='#'>Export</a>
      </div>
    </footer>
  </main>
</body>
</html>".

Definition generate_site (req : GenerateRequest) : HTTPException + GenerateResponse :=
  let p := strip (prompt req) in
  match p with
  | [] => inl {| status_code := 400; detail := lit "Prompt cannot be empty" |}
  | _ =>
    let c := color req in
    let n := sections_or (sections req) 3 in
    let title := make_title p in
    let blocks := section_blocks p n in
    inr {| html := page c title blocks;
           meta := {[ "prompt"%string := VStr p;
                      "color"%string := opt_str c;
                      "sections"%string := VInt n ]} |}
  end.

(** ** GET / and GET /api/hello *)

Definition read_root : gmap string pyval :=
  {[ "message"%string := VStr (lit "FlamesBlue AI Builder Backend is running") ]}.

Definition hello : gmap string pyval :=
  {[ "message"%string := VStr (lit "Hello from the backend API!") ]}.

(** ** GET /test *)

(** The exceptions the probe can meet.  All of them derive from [Exception];
    [except ImportError] tells the first class from the rest, and
    [exc_str] is [str(e)].  System-exiting exceptions ([KeyboardInterrupt],
    [SystemExit]) and a [str(e)] that raises are left to the module [Full]
    below. *)
Inductive exc_class := ImportError | OtherException.

Record pyexc := {
  exc_class_of : exc_class;
  exc_str : pystr
}.

(** The database handle as the probe uses it: [getattr_name] is what reading
    [db.name] does ([inr None] when the attribute is missing, which is what
    [hasattr] tests), [list_collection_names] what the call does. *)
Record Database := {
  getattr_name : pyexc + option pyval;
  list_collection_names : pyexc + list pystr
}.

(** What the handlers see of the process: the outcome of
    [from database import db] (the import may raise, and [db] may be [None])
    and the environment variables. *)
Record World := {
  import_db : pyexc + option Database;
  environ : gmap string pystr
}.

(** [os.getenv(k)] *)
Definition getenv (w : World) (k : string) : option pystr := environ w !! k.

(** Truth value of [os.getenv(k)]: [None] and the empty string are falsy. *)
Definition truthy (o : option pystr) : bool :=
  match o with
  | None => false
  | Some [] => false
  | Some (_ :: _) => true
  end.

(** A block of statements working on the [response] dict: it leaves the dict
    as mutated so far and says whether an exception is on its way up. *)
Definition block := gmap string pyval -> option pyexc * gmap string pyval.

Definition assign (k : string) (v : pyval) : block :=
  fun r => (None, <[k := v]> r).

Definition then_ (a b : block) : block :=
  fun r =>
    match a r with
    | (None, r') => b r'
    | (Some e, r') => (Some e, r')
    end.

(** Evaluate an expression that may raise, then go on with its value. *)
Definition eval {A : Type} (x : pyexc + A) (k : A -> block) : block :=
  fun r =>
    match x with
    | inl e => (Some e, r)
    | inr a => k a r
    end.

(** [try: body except ...: handler]; [handlers e] is the first clause that
    matches [e], if any. *)
Definition try_except (body : block) (handlers : pyexc -> option block) : block :=
  fun r =>
    match body r with
    | (None, r') => (None, r')
    | (Some e, r') =>
      match handlers e with
      | Some h => h r'
      | None => (Some e, r')
      end
    end.

Notation "a ;; b" := (then_ a b) (at level 100, right associativity).
Notation "x <- e ;; k" := (eval e (fun x => k))
  (at level 100, e at next level, right associativity).

(** [except Exception as e]: matches every modelled exception. *)
Definition except_Exception (h : pyexc -> block) : pyexc -> option block :=
  fun e => Some (h e).

(** [except ImportError: h1] followed by [except Exception as e: h2]. *)
Definition except_ImportError_then (h1 : block) (h2 : pyexc -> block)
  : pyexc -> option block :=
  fun e =>
    match exc_class_of e with
    | ImportError => Some h1
    | OtherException => Some (h2 e)
    end.

(** [db.name if hasattr(db, 'name') else dflt] *)
Definition name_or (db : Database) (dflt : pyval) : pyexc + pyval :=
  match getattr_name db with
  | inl e => inl e
  | inr None => inr dflt
  | inr (Some v) => inr v
  end.

Definition test_database (w : World) : pyexc + gmap string pyval :=
  let response : gmap string pyval :=
    {[ "backend"%string := VStr (lit "✅ Running");
       "database"%string := VStr (lit "❌ Not Available");
       "database_url"%string := VNone;
       "database_name"%string := VNone;
       "connection_status"%string := VStr (lit "Not Connected");
       "collections"%string := VList [] ]} in
  let probe : block :=
    try_except
      (db <- import_db w ;;
       match db with
       | Some db =>
         assign "database" (VStr (lit "✅ Available")) ;;
         assign "database_url" (VStr (lit "✅ Configured")) ;;
         (nm <- name_or db (VStr (lit "✅ Connected")) ;;
          assign "database_name" nm) ;;
         assign "connection_status" (VStr (lit "Connected")) ;;
         try_except
           (collections <- list_collection_names db ;;
            assign "collections" (VList (firstn 10 collections)) ;;
            assign "database" (VStr (lit "✅ Connected & Working")))
           (except_Exception (fun e =>
              assign "database"
                (VStr (lit "⚠️  Connected but Error: " ++ firstn 50 (exc_str e)))))
       | None =>
         assign "database" (VStr (lit "⚠️  Available but not initialized"))
       end)
      (except_ImportError_then
         (assign "database"
            (VStr (lit "❌ Database module not found (run enable-database first)")))
         (fun e =>
            assign "database" (VStr (lit "❌ Error: " ++ firstn 50 (exc_str e))))) in
  match probe response with
  | (Some e, _) => inl e
  | (None, response) =>
    let response :=
      <["database_url"%string :=
          VStr (if truthy (getenv w "DATABASE_URL") then lit "✅ Set" else lit "❌ Not Set")]>
        response in
    let response :=
      <["database_name"%string :=
          VStr (if truthy (getenv w "DATABASE_NAME") then lit "✅ Set" else lit "❌ Not Set")]>
        response in
    inr response
  end.

(** ** GET /test, with the exceptions the handlers do not catch

    [test_database] above runs in a process whose exceptions all derive from
    [Exception] and have a message [str(e)].  Python has more: an exception
    may derive from [BaseException] only ([KeyboardInterrupt], [SystemExit]),
    which [except Exception] does not catch, and [str(e)], which both
    handlers call on their own (lines 191 and 197), may itself raise.  The
    module [Full] is the same handler in such a process. *)
Module Full.

Inductive exc_class := ImportError | OtherException | BaseOnly.

(** An exception: its class, and what [str(e)] does, which is to give the
    message or to raise in turn. *)
#[local] Unset Elimination Schemes.
Inductive pyexc := Raise (cls : exc_class) (str : pyexc + pystr).
#[local] Set Elimination Schemes.

Definition exc_class_of (e : pyexc) : exc_class :=
  match e with Raise cls _ => cls end.

Definition exc_str (e : pyexc) : pyexc + pystr :=
  match e with Raise _ str => str end.

Record Database := {
  getattr_name : pyexc + option pyval;
  list_collection_names : pyexc + list pystr
}.

Record World := {
  import_db : pyexc + option Database;
  environ : gmap string pystr
}.

Definition getenv (w : World) (k : string) : option pystr := environ w !! k.

Definition block := gmap string pyval -> option pyexc * gmap string pyval.

Definition assign (k : string) (v : pyval) : block :=
  fun r => (None, <[k := v]> r).

Definition then_ (a b : block) : block :=
  fun r =>
    match a r with
    | (None, r') => b r'
    | (Some e, r') => (Some e, r')
    end.

Definition eval {A : Type} (x : pyexc + A) (k : A -> block) : block :=
  fun r =>
    match x with
    | inl e => (Some e, r)
    | inr a => k a r
    end.

Definition try_except (body : block) (handlers : pyexc -> option block) : block :=
  fun r =>
    match body r with
    | (None, r') => (None, r')
    | (Some e, r') =>
      match handlers e with
      | Some h => h r'
      | None => (Some e, r')
      end
    end.

(** [except Exception as e]: not for an exception that derives from
    [BaseException] only. *)
Definition except_Exception (h : pyexc -> block) : pyexc -> option block :=
  fun e =>
    match exc_class_of e with
    | BaseOnly => None
    | _ => Some (h e)
    end.

Definition except_ImportError_then (h1 : block) (h2 : pyexc -> block)
  : pyexc -> option block :=
  fun e =>
    match exc_class_of e with
    | ImportError => Some h1
    | OtherException => Some (h2 e)
    | BaseOnly => None
    end.

Definition name_or (db : Database) (dflt : pyval) : pyexc + pyval :=
  match getattr_name db with
  | inl e => inl e
  | inr None => inr dflt
  | inr (Some v) => inr v
  end.

Definition test_database (w : World) : pyexc + gmap string pyval :=
  let response : gmap string pyval :=
    {[ "backend"%string := VStr (lit "✅ Running");
       "database"%string := VStr (lit "❌ Not Available");
       "database_url"%string := VNone;
       "database_name"%string := VNone;
       "connection_status"%string := VStr (lit "Not Connected");
       "collections"%string := VList [] ]} in
  let probe : block :=
    try_except
      (eval (import_db w) (fun db =>
       match db with
       | Some db =>
         then_ (assign "database" (VStr (lit "✅ Available")))
         (then_ (assign "database_url" (VStr (lit "✅ Configured")))
         (then_ (eval (name_or db (VStr (lit "✅ Connected"))) (fun nm =>
                   assign "database_name" nm))
         (then_ (assign "connection_status" (VStr (lit "Connected")))
         (try_except
            (eval (list_collection_names db) (fun collections =>
             then_ (assign "collections" (VList (firstn 10 collections)))
                   (assign "database" (VStr (lit "✅ Connected & Working")))))
            (except_Exception (fun e =>
               eval (exc_str e) (fun s =>
               assign "database"
                 (VStr (lit "⚠️  Connected but Error: " ++ firstn 50 s)))))))))
       | None =>
         assign "database" (VStr (lit "⚠️  Available but not initialized"))
       end))
      (except_ImportError_then
         (assign "database"
            (VStr (lit "❌ Database module not found (run enable-database first)")))
         (fun e =>
            eval (exc_str e) (fun s =>
            assign "database" (VStr (lit "❌ Error: " ++ firstn 50 s))))) in
  match probe response with
  | (Some e, _) => inl e
  | (None, response) =>
    let response :=
      <["database_url"%string :=
          VStr (if truthy (getenv w "DATABASE_URL") then lit "✅ Set" else lit "❌ Not Set")]>
        response in
    let response :=
      <["database_name"%string :=
          VStr (if truthy (getenv w "DATABASE_NAME") then lit "✅ Set" else lit "❌ Not Set")]>
        response in
    inr response
  end.

End Full.









(** ** The routes *)

(** The requests the application answers (the route decorators of the
    source); the body of POST /api/generate is the validated model. *)
Inductive Request :=
| GetRoot
| GetHello
| GetFunctions
| PostGenerate (req : GenerateRequest)
| GetTest.

Inductive Reply :=
| Json (d : gmap string pyval)
| JsonFunctions (d : gmap string (list Capability))
| JsonGenerated (r : GenerateResponse)
| HttpError (e : HTTPException)
| Unhandled (e : pyexc).

Definition app (w : World) (rq : Request) : Reply :=
  match rq with
  | GetRoot => Json read_root
  | GetHello => Json hello
  | GetFunctions => JsonFunctions list_functions
  | PostGenerate req =>
    match generate_site req with
    | inl e => HttpError e
    | inr r => JsonGenerated r
    end
  | GetTest =>
    match test_database w with
    | inl e => Unhandled e
    | inr r => Json r
    end
  end.

(** ** Properties of the generated text *)

(** [starts_with m s]: [s.startswith(m)]. *)
Fixpoint starts_with (m s : pystr) : bool :=
  match m, s with
  | [], _ => true
  | _ :: _, [] => false
  | a :: m', b :: s' => (a =? b) && starts_with m' s'
  end.

(** The number of positions of [s] at which [m] occurs. *)
Fixpoint occurrences (m s : pystr) : nat :=
  match s with
  | [] => 0
  | _ :: t => ((if starts_with m s then 1 else 0) + occurrences m t)%nat
  end.

(** [m] and [l] differ at a position both have. *)
Fixpoint clash (m l : pystr) : bool :=
  match m, l with
  | a :: m', b :: l' => negb (a =? b) || clash m' l'
  | _, _ => false
  end.

(** No occurrence of [m] that begins inside [l] can run over the end of [l]:
    every suffix of [l] shorter than [m] already differs from [m]. *)
Fixpoint closed_right (m l : pystr) : bool :=
  match l with
  | [] => true
  | _ :: t => ((length m <=? length l)%nat || clash m l) && closed_right m t
  end.

(** No occurrence of [m] that begins before [l] can run into [l]: every
    proper suffix of [m] differs from [l]. *)
Definition closed_left (m l : pystr) : bool :=
  forallb (fun k => clash (skipn k m) l) (seq 1 (length m - 1)).

(** The opening tag that marks a section block (line 98). *)
Definition section_marker : pystr :=
  tpl "<section class='py-16 border-t border-white/10'>".

(** *** Matched tags

    A scanner for the tag structure of an HTML text: it follows the tags,
    keeps the stack of open elements and counts the elements opened at top
    level.  Quoted attribute values are skipped as a whole, [<!...>]
    declarations are skipped, and the void elements have no closing tag. *)
Inductive mode :=
| Text
| TagOpen
| TagName (closing : bool) (acc : pystr)
| Attrs (closing : bool) (nm : pystr)
| Quoted (q : char) (closing : bool) (nm : pystr)
| Decl.

Record scanner := {
  md : mode;
  open_elements : list pystr;
  roots : nat;
  sound : bool
}.

Definition void_elements : list pystr :=
  map lit ["area"; "base"; "br"; "col"; "embed"; "hr"; "img"; "input";
           "link"; "meta"; "source"; "track"; "wbr"]%string.

Definition pystr_eqb (a b : pystr) : bool :=
  (length a =? length b)%nat && starts_with a b.

Definition is_void (nm : pystr) : bool := existsb (pystr_eqb nm) void_elements.

(** The end of a tag: a closing tag must close the innermost open element,
    an opening tag of a non-void element opens one. *)
Definition end_tag (closing : bool) (nm : pystr) (st : scanner) : scanner :=
  if closing then
    match open_elements st with
    | top :: rest =>
      if pystr_eqb top nm
      then {| md := Text; open_elements := rest; roots := roots st; sound := sound st |}
      else {| md := Text; open_elements := rest; roots := roots st; sound := false |}
    | [] => {| md := Text; open_elements := []; roots := roots st; sound := false |}
    end
  else
    let r := match open_elements st with [] => S (roots st) | _ => roots st end in
    if is_void nm
    then {| md := Text; open_elements := open_elements st; roots := r; sound := sound st |}
    else {| md := Text; open_elements := nm :: open_elements st; roots := r; sound := sound st |}.

Definition with_mode (m : mode) (st : scanner) : scanner :=
  {| md := m; open_elements := open_elements st; roots := roots st; sound := sound st |}.

Definition scan_char (st : scanner) (c : char) : scanner :=
  match md st with
  | Text => if c =? 60 then with_mode TagOpen st else st
  | TagOpen =>
    if c =? 47 then with_mode (TagName true []) st
    else if c =? 33 then with_mode Decl st
    else if (c =? 62) || py_isspace c
    then {| md := Text; open_elements := open_elements st; roots := roots st; sound := false |}
    else with_mode (TagName false [c]) st
  | TagName closing acc =>
    if c =? 62 then end_tag closing (rev acc) st
    else if py_isspace c || (c =? 47) then with_mode (Attrs closing (rev acc)) st
    else with_mode (TagName closing (c :: acc)) st
  | Attrs closing nm =>
    if c =? 62 then end_tag closing nm st
    else if (c =? 34) || (c =? 39) then with_mode (Quoted c closing nm) st
    else st
  | Quoted q closing nm =>
    if c =? q then with_mode (Attrs closing nm) st else st
  | Decl => if c =? 62 then with_mode Text st else st
  end.

Definition scan (s : pystr) (st : scanner) : scanner := fold_left scan_char s st.

Definition scan_start : scanner :=
  {| md := Text; open_elements := []; roots := 0; sound := true |}.

(** Every opened tag is closed by the matching closing tag, in order, and
    there is a single root element. *)
Definition well_formed (s : pystr) : bool :=
  let st := scan s scan_start in
  sound st
  && match md st with Text => true | _ => false end
  && match open_elements st with [] => true | _ => false end
  && (roots st =? 1)%nat.

(** [in_order ns h]: the texts [ns] occur in [h] one after the other, without
    overlapping. *)
Fixpoint in_order (ns : list pystr) (h : pystr) : Prop :=
  match ns with
  | [] => True
  | n :: ns' => exists a rest, h = a ++ n ++ rest /\ in_order ns' rest
  end.

(** The error of an empty prompt (line 84). *)
Definition empty_prompt_error : HTTPException :=
  {| status_code := 400; detail := lit "Prompt cannot be empty" |}.

(** The request of the boundary scenario. *)
Definition bakery : GenerateRequest :=
  {| prompt := lit "Build me a bakery site";
     color := Some (lit "emerald");
     sections := Some 2%Z |}.

(** The hero heading holding the title [t] (line 133). *)
Definition hero_heading (t : pystr) : pystr :=
  tpl "<h1 class='text-4xl md:text-5xl font-bold leading-tight'>" ++ t ++ tpl "</h1>".

(** The title as the truncation law of the specification words it: an
    ellipsis after the first 80 characters when the prompt is longer, and the
    prompt without its trailing periods otherwise. *)
Definition title_as_specified (p : pystr) : pystr :=
  if (80 <? length p)%nat
  then rstrip (lit ".") (firstn 80 p) ++ lit "..."
  else rstrip (lit ".") p.

(** A short prompt that ends with a period. *)
Definition hello_period : GenerateRequest :=
  {| prompt := lit "Hello."; color := default_color; sections := default_sections |}.


(** [os.environ] has the key, whatever its value. *)
Definition present (w : World) (k : string) : bool :=
  match environ w !! k with
  | Some _ => true
  | None => false
  end.

Definition set_or_not (b : bool) : pyval :=
  VStr (if b then lit "✅ Set" else lit "❌ Not Set").

(** A state of the process in which [DATABASE_URL] is set to the empty
    string. *)
Definition world_empty_url : World :=
  {| import_db := inr None;
     environ := {[ "DATABASE_URL"%string := [] ]} |}.

(** The three places the color goes to: the accent square of the navigation
    bar (line 122), the primary action button (line 136) and the footer link
    (line 151). *)
Definition nav_accent (c : pystr) : pystr :=
  tpl "<div class='w-8 h-8 rounded-lg bg-" ++ c ++ tpl "-500/20 border border-" ++ c
  ++ tpl "-500/30'></div>".

Definition primary_button (c : pystr) : pystr :=
  tpl "<a class='px-5 py-3 rounded-lg bg-" ++ c ++ tpl "-500 text-white hover:bg-" ++ c
  ++ tpl "-400 transition'>Primary action</a>".

Definition footer_link (c : pystr) : pystr :=
  tpl "<a class='text-sm text-" ++ c ++ tpl "-400 hover:text-" ++ c
  ++ tpl "-300' href='#'>Export</a>".

(** The scanner between two children of [main]. *)
Definition in_main : scanner :=
  {| md := Text;
     open_elements := [lit "main"; lit "body"; lit "html"];
     roots := 1;
     sound := true |}.

(** A prompt that opens a tag and does not close it. *)
Definition open_bold : GenerateRequest :=
  {| prompt := lit "<b>"; color := default_color; sections := default_sections |}.

(** The heading of the block with label [k] (line 100) and the start of its
    paragraph, which opens with the prompt [p] (line 101). *)
Definition section_heading (k : Z) : pystr :=
  tpl "<h3 class='text-2xl font-semibold text-white mb-4'>Section " ++ py_str_int k
  ++ tpl "</h3>".

Definition section_copy (p : pystr) : pystr :=
  tpl "<p class='text-slate-300 leading-relaxed'>" ++ p.

(** A prompt that is itself the opening tag of a section block. *)
Definition marker_prompt : GenerateRequest :=
  {| prompt := tpl "<section class='py-16 border-t border-white/10'>";
     color := default_color;
     sections := Some 1%Z |}.

(** [ends_with x s]: [s.endswith(x)]. *)
Definition ends_with (x s : pystr) : Prop := exists a, s = a ++ x.

(** A request whose color is an explicit null. *)
Definition null_color : GenerateRequest :=
  {| prompt := lit "A page"; color := None; sections := default_sections |}.

(** * Theorems *)

(** ** Strings *)

Lemma lstrip_by_suffix f s : exists d, s = d ++ lstrip_by f s.
Proof.
  induction s as [|c t [d Hd]]; simpl.
  - exists []. reflexivity.
  - destruct (f c).
    + exists (c :: d). simpl. f_equal. exact Hd.
    + exists []. reflexivity.
Qed.

Lemma rstrip_by_prefix f s : exists d, s = rstrip_by f s ++ d.
Proof.
  unfold rstrip_by. destruct (lstrip_by_suffix f (rev s)) as [d Hd].
  exists (rev d). rewrite <- rev_app_distr, <- Hd. symmetry. apply rev_involutive.
Qed.

Lemma rstrip_by_length f s : (length (rstrip_by f s) <= length s)%nat.
Proof.
  destruct (rstrip_by_prefix f s) as [d Hd].
  rewrite Hd at 2. rewrite length_app. lia.
Qed.

Lemma rstrip_by_shorter f s : rstrip_by f s <> s -> (length (rstrip_by f s) < length s)%nat.
Proof.
  intros Hne. destruct (rstrip_by_prefix f s) as [d Hd].
  destruct d as [|x d].
  - rewrite app_nil_r in Hd. congruence.
  - rewrite Hd at 2. rewrite length_app. simpl. lia.
Qed.

(** ** The generator: errors, metadata, determinism *)

Lemma generate_site_accepts req :
  strip (prompt req) <> [] ->
  generate_site req =
    inr {| html := page (color req) (make_title (strip (prompt req)))
                     (section_blocks (strip (prompt req)) (sections_or (sections req) 3));
           meta := {[ "prompt"%string := VStr (strip (prompt req));
                      "color"%string := opt_str (color req);
                      "sections"%string := VInt (sections_or (sections req) 3) ]} |}.
Proof.
  intros Hne. unfold generate_site.
  destruct (strip (prompt req)); [congruence | reflexivity].
Qed.

Lemma generate_site_rejects req :
  strip (prompt req) = [] -> generate_site req = inl empty_prompt_error.
Proof. intros He. unfold generate_site. rewrite He. reflexivity. Qed.

(** C3.  [generate_site] fails with status 400 and detail
    [Prompt cannot be empty] exactly when the prompt is empty after
    stripping; it then returns no response, and it raises no other error: a
    result is either that error, for an empty stripped prompt, or a response,
    for a non-empty one. *)
Theorem generate_site_error_iff (req : GenerateRequest) :
  (generate_site req = inl empty_prompt_error <-> strip (prompt req) = [])
  /\ match generate_site req with
     | inl e => e = empty_prompt_error /\ strip (prompt req) = []
     | inr _ => strip (prompt req) <> []
     end.
Proof.
  destruct (strip (prompt req)) as [|c t] eqn:Hp.
  - rewrite (generate_site_rejects req Hp). repeat split; reflexivity.
  - assert (Hne : strip (prompt req) <> []) by (rewrite Hp; discriminate).
    rewrite (generate_site_accepts req Hne). split; [split|]; discriminate.
Qed.

(** C5.  For an accepted request the [meta] record holds the stripped prompt,
    the color as given and the section count used ([sections], or 3 when it
    is missing). *)
Theorem meta_normalised (req : GenerateRequest) :
  strip (prompt req) <> [] ->
  exists r, generate_site req = inr r
    /\ meta r = {[ "prompt"%string := VStr (strip (prompt req));
                   "color"%string := opt_str (color req);
                   "sections"%string := VInt (sections_or (sections req) 3) ]}.
Proof.
  intros Hne. rewrite (generate_site_accepts req Hne).
  eexists. split; reflexivity.
Qed.

Lemma meta_normalised_bakery :
  strip (prompt bakery) <> []
  /\ exists r, generate_site bakery = inr r
       /\ meta r = {[ "prompt"%string := VStr (lit "Build me a bakery site");
                      "color"%string := VStr (lit "emerald");
                      "sections"%string := VInt 2 ]}.
Proof.
  assert (H : strip (prompt bakery) <> []) by (vm_compute; discriminate).
  split; [exact H|].
  destruct (meta_normalised bakery H) as [r [Hr Hm]].
  exists r. split; [exact Hr|]. rewrite Hm. reflexivity.
Defined.

(** C9.  GET /api/functions answers, in every state of the process, the same
    list of exactly five capabilities, each of them free. *)
Theorem list_functions_five (w : World) :
  exists fs,
    app w GetFunctions = JsonFunctions {[ "functions"%string := fs ]}
    /\ list_functions !! "functions"%string = Some fs
    /\ length fs = 5%nat
    /\ Forall (fun f => free f = true) fs.
Proof.
  eexists. split; [reflexivity|]. split; [reflexivity|].
  split; [reflexivity|]. repeat constructor.
Qed.

(** ** The database probe *)





Lemma test_database_env_fields imp env :
  exists r,
    test_database {| import_db := imp; environ := env |} = inr r
    /\ r !! "database_url"%string = Some (set_or_not (truthy (env !! "DATABASE_URL"%string)))
    /\ r !! "database_name"%string = Some (set_or_not (truthy (env !! "DATABASE_NAME"%string))).
Proof.
  unfold test_database, set_or_not. simpl import_db.
  destruct imp as [[[] m]|[[[[[] m]|[v|]] [[[] m']|cols]]|]].
  all: cbv [try_except eval then_ assign except_Exception except_ImportError_then name_or
         getattr_name list_collection_names exc_class_of exc_str getenv environ].
  all: eexists; split; [reflexivity|].
  all: split; by simplify_map_eq.
Qed.

(** C10, as the code has it.  In every response of the probe the fields
    [database_url] and [database_name] say whether [DATABASE_URL] and
    [DATABASE_NAME] are set to a non-empty value: they are written last, over
    whatever the connection check put there, and so do not depend on the
    database handle or on the outcome of the check. *)
Theorem test_database_env_only (imp : pyexc + option Database) (env : gmap string pystr) :
  exists r,
    test_database {| import_db := imp; environ := env |} = inr r
    /\ r !! "database_url"%string = Some (set_or_not (truthy (env !! "DATABASE_URL"%string)))
    /\ r !! "database_name"%string = Some (set_or_not (truthy (env !! "DATABASE_NAME"%string)))
    /\ forall imp', exists r',
         test_database {| import_db := imp'; environ := env |} = inr r'
         /\ r' !! "database_url"%string = r !! "database_url"%string
         /\ r' !! "database_name"%string = r !! "database_name"%string.
Proof.
  destruct (test_database_env_fields imp env) as [r [Hr [Hu Hn]]].
  exists r. repeat split; try assumption.
  intros imp'. destruct (test_database_env_fields imp' env) as [r' [Hr' [Hu' Hn']]].
  exists r'. repeat split; congruence.
Qed.

(** C10 as stated fails: with [DATABASE_URL] present in the environment but
    empty, the probe reports it as not set. *)
Lemma test_database_empty_variable :
  present world_empty_url "DATABASE_URL" = true
  /\ ~ (forall r, test_database world_empty_url = inr r ->
          r !! "database_url"%string
          = Some (set_or_not (present world_empty_url "DATABASE_URL"))).
Proof.
  split; [reflexivity|]. intros H.
  destruct (test_database_env_fields (inr None) {[ "DATABASE_URL"%string := [] ]})
    as [r [Hr [Hu _]]].
  specialize (H r Hr). rewrite Hu in H.
  vm_compute in H. discriminate H.
Qed.

(** ** The places of the page *)

Lemma in_order_skip ns x h : in_order ns h -> in_order ns (x ++ h).
Proof.
  destruct ns as [|n ns]; [trivial|].
  intros [a [rest [Hh Hr]]]. exists (x ++ a), rest.
  split; [|exact Hr]. rewrite Hh. apply app_assoc.
Qed.

Lemma in_order_here n ns rest : in_order ns rest -> in_order (n :: ns) (n ++ rest).
Proof. intros Hr. exists [], rest. split; [reflexivity | exact Hr]. Qed.

Lemma in_order_cut ns l a x rest :
  l = a ++ x -> in_order ns (x ++ rest) -> in_order ns (l ++ rest).
Proof. intros -> H. rewrite <- app_assoc. apply in_order_skip. exact H. Qed.

Lemma in_order_cut_around ns l a x b rest :
  l = a ++ x ++ b -> in_order ns (x ++ b ++ rest) -> in_order ns (l ++ rest).
Proof. intros -> H. rewrite <- !app_assoc. apply in_order_skip. exact H. Qed.

(** [cut_before X]: the text in front is a literal that ends with [X]; skip
    all of it but [X]. *)
Ltac cut_before X :=
  lazymatch goal with
  | |- in_order ?ns (?L ++ ?rest) =>
    let a := eval vm_compute in (firstn (length L - length X) L) in
    apply (in_order_cut ns L a X rest); [vm_compute; reflexivity|]
  end.

(** [cut_around n X]: the text in front is a literal that holds [X] from
    position [n] on; skip what precedes [X]. *)
Ltac cut_around n X :=
  lazymatch goal with
  | |- in_order ?ns (?L ++ ?rest) =>
    let a := eval vm_compute in (firstn n L) in
    let b := eval vm_compute in (skipn (n + length X) L) in
    apply (in_order_cut_around ns L a X b rest); [vm_compute; reflexivity|]
  end.

(** [cut_after L X]: the template literal [L] begins with [X]; split it
    there. *)
Ltac cut_after s X :=
  let b := eval vm_compute in (skipn (length X) (tpl s)) in
  replace (tpl s) with (X ++ b) by (vm_compute; reflexivity);
  rewrite <- (app_assoc X b).

Lemma page_hero_heading c t blocks : in_order [hero_heading t] (page c t blocks).
Proof.
  unfold page, hero_heading. do 8 apply in_order_skip.
  cut_before (tpl "<h1 class='text-4xl md:text-5xl font-bold leading-tight'>").
  lazymatch goal with
  | |- in_order _ (_ ++ t ++ tpl ?s ++ _) => cut_after s (tpl "</h1>")
  end.
  match goal with
  | |- in_order _ (?h1 ++ t ++ ?h1c ++ ?rest) =>
    replace (h1 ++ t ++ h1c ++ rest) with ((h1 ++ t ++ h1c) ++ rest)
      by (rewrite <- !app_assoc; reflexivity)
  end.
  apply in_order_here. exact I.
Qed.

(** ** The title *)

Lemma make_title_long p :
  (80 < length p)%nat -> make_title p = rstrip (lit ".") (firstn 80 p) ++ lit "...".
Proof.
  intros Hlen. unfold make_title, rstrip.
  pose proof (rstrip_by_length (fun c => existsb (N.eqb c) (lit ".")) (firstn 80 p)) as Hle.
  rewrite length_firstn in Hle.
  destruct (Nat.ltb_spec (length (rstrip_by (fun c => existsb (N.eqb c) (lit ".")) (firstn 80 p)))
              (length p)); [reflexivity | lia].
Qed.

Lemma make_title_short p :
  (length p <= 80)%nat ->
  make_title p = if (length (rstrip (lit ".") p) <? length p)%nat
                 then rstrip (lit ".") p ++ lit "..."
                 else rstrip (lit ".") p.
Proof. intros Hlen. unfold make_title. rewrite firstn_all2 by exact Hlen. reflexivity. Qed.

Lemma make_title_plain p :
  (length p <= 80)%nat -> rstrip (lit ".") p = p -> make_title p = p.
Proof.
  intros Hlen Heq. rewrite (make_title_short p Hlen), Heq.
  rewrite Nat.ltb_irrefl. reflexivity.
Qed.

Lemma make_title_stripped p :
  (length p <= 80)%nat -> rstrip (lit ".") p <> p ->
  make_title p = rstrip (lit ".") p ++ lit "...".
Proof.
  intros Hlen Hne. rewrite (make_title_short p Hlen).
  apply rstrip_by_shorter in Hne. fold (rstrip (lit ".") p) in Hne.
  destruct (Nat.ltb_spec (length (rstrip (lit ".") p)) (length p)); [reflexivity | lia].
Qed.

(** C1, as the code has it.  For an accepted request the hero heading holds
    the title computed from the stripped prompt [p]: when [p] is longer than
    80 characters, its first 80 characters without trailing periods, followed
    by the ellipsis; otherwise [p] itself when it does not end with a period,
    and [p] without its trailing periods followed by the ellipsis when it
    does. *)
Theorem title_law (req : GenerateRequest) :
  strip (prompt req) <> [] ->
  exists r t,
    generate_site req = inr r
    /\ html r = page (color req) t
                  (section_blocks (strip (prompt req)) (sections_or (sections req) 3))
    /\ in_order [hero_heading t] (html r)
    /\ ((80 < length (strip (prompt req)))%nat ->
        t = rstrip (lit ".") (firstn 80 (strip (prompt req))) ++ lit "...")
    /\ ((length (strip (prompt req)) <= 80)%nat ->
        rstrip (lit ".") (strip (prompt req)) = strip (prompt req) ->
        t = strip (prompt req))
    /\ ((length (strip (prompt req)) <= 80)%nat ->
        rstrip (lit ".") (strip (prompt req)) <> strip (prompt req) ->
        t = rstrip (lit ".") (strip (prompt req)) ++ lit "...").
Proof.
  intros Hne. rewrite (generate_site_accepts req Hne).
  eexists. exists (make_title (strip (prompt req))).
  split; [reflexivity|]. split; [reflexivity|]. split; [apply page_hero_heading|].
  split; [apply make_title_long|]. split; [apply make_title_plain | apply make_title_stripped].
Qed.

Lemma title_law_bakery :
  strip (prompt bakery) <> []
  /\ exists r t,
    generate_site bakery = inr r
    /\ html r = page (color bakery) t
                  (section_blocks (strip (prompt bakery)) (sections_or (sections bakery) 3))
    /\ in_order [hero_heading t] (html r)
    /\ ((80 < length (strip (prompt bakery)))%nat ->
        t = rstrip (lit ".") (firstn 80 (strip (prompt bakery))) ++ lit "...")
    /\ ((length (strip (prompt bakery)) <= 80)%nat ->
        rstrip (lit ".") (strip (prompt bakery)) = strip (prompt bakery) ->
        t = strip (prompt bakery))
    /\ ((length (strip (prompt bakery)) <= 80)%nat ->
        rstrip (lit ".") (strip (prompt bakery)) <> strip (prompt bakery) ->
        t = rstrip (lit ".") (strip (prompt bakery)) ++ lit "...").
Proof.
  assert (H : strip (prompt bakery) <> []) by (vm_compute; discriminate).
  split; [exact H | exact (title_law bakery H)].
Defined.

(** C1 as stated fails: the prompt [Hello.] is not truncated, and still its
    title is [Hello...], not [Hello]. *)
Lemma title_ellipsis_without_truncation :
  strip (prompt hello_period) <> []
  /\ ~ (forall r, generate_site hello_period = inr r ->
          html r = page (color hello_period)
                     (title_as_specified (strip (prompt hello_period)))
                     (section_blocks (strip (prompt hello_period))
                        (sections_or (sections hello_period) 3))).
Proof.
  assert (Hne : strip (prompt hello_period) <> []) by (vm_compute; discriminate).
  split; [exact Hne|]. intros H.
  specialize (H _ (generate_site_accepts hello_period Hne)).
  apply (f_equal (@length char)) in H. vm_compute in H. discriminate H.
Qed.

(** ** The color *)

Lemma in_order_at n ns h rest :
  h = n ++ rest -> in_order ns rest -> in_order (n :: ns) h.
Proof. intros ->. apply in_order_here. Qed.

Lemma page_color_sites c t blocks :
  in_order [nav_accent c; primary_button c; footer_link c] (page (Some c) t blocks).
Proof.
  unfold page, format_value.
  cut_before (tpl "<div class='w-8 h-8 rounded-lg bg-").
  lazymatch goal with
  | |- in_order _ (_ ++ c ++ _ ++ c ++ tpl ?s ++ _) => cut_after s (tpl "-500/30'></div>")
  end.
  eapply in_order_at; [unfold nav_accent; rewrite <- !app_assoc; reflexivity|].
  do 6 apply in_order_skip.
  cut_before (tpl "<a class='px-5 py-3 rounded-lg bg-").
  lazymatch goal with
  | |- in_order _ (_ ++ c ++ _ ++ c ++ tpl ?s ++ _) =>
    cut_after s (tpl "-400 transition'>Primary action</a>")
  end.
  eapply in_order_at; [unfold primary_button; rewrite <- !app_assoc; reflexivity|].
  do 2 apply in_order_skip.
  cut_before (tpl "<a class='text-sm text-").
  lazymatch goal with
  | |- in_order _ (_ ++ c ++ _ ++ c ++ tpl ?s) =>
    let b := eval vm_compute in (skipn (length (tpl "-300' href='#'>Export</a>")) (tpl s)) in
    replace (tpl s) with (tpl "-300' href='#'>Export</a>" ++ b) by (vm_compute; reflexivity)
  end.
  eapply in_order_at; [unfold footer_link; rewrite <- !app_assoc; reflexivity|].
  exact I.
Qed.

(** C6.  For an accepted request the color text is written as it is into the
    page at three separate places, one after the other: the accent class of
    the navigation bar ([bg-{color}-500...]), the class of the primary action
    button, and the class of the footer link ([text-{color}-400...]); this
    holds for every text, no palette is consulted. *)
Theorem color_interpolated (req : GenerateRequest) (c : pystr) :
  strip (prompt req) <> [] ->
  color req = Some c ->
  exists r,
    generate_site req = inr r
    /\ in_order [nav_accent c; primary_button c; footer_link c] (html r).
Proof.
  intros Hne Hc. rewrite (generate_site_accepts req Hne), Hc.
  eexists. split; [reflexivity|]. apply page_color_sites.
Qed.

Lemma color_interpolated_bakery :
  strip (prompt bakery) <> []
  /\ color bakery = Some (lit "emerald")
  /\ exists r,
       generate_site bakery = inr r
       /\ in_order [nav_accent (lit "emerald"); primary_button (lit "emerald");
                    footer_link (lit "emerald")] (html r).
Proof.
  assert (H : strip (prompt bakery) <> []) by (vm_compute; discriminate).
  split; [exact H|]. split; [reflexivity|].
  exact (color_interpolated bakery (lit "emerald") H eq_refl).
Defined.

(** ** Matched tags *)

Lemma scan_app a b st : scan (a ++ b) st = scan b (scan a st).
Proof. apply fold_left_app. Qed.

Lemma scan_text x st :
  md st = Text -> Forall (fun c => c <> 60) x -> scan x st = st.
Proof.
  intros Hmd Hx. induction Hx as [|c x Hc _ IH]; [reflexivity|].
  unfold scan in *. simpl. unfold scan_char at 2. rewrite Hmd.
  destruct (N.eqb_spec c 60); [contradiction | exact IH].
Qed.

Lemma scan_quoted x q cl nm st :
  md st = Quoted q cl nm -> Forall (fun c => c <> q) x -> scan x st = st.
Proof.
  intros Hmd Hx. induction Hx as [|c x Hc _ IH]; [reflexivity|].
  unfold scan in *. simpl. unfold scan_char at 2. rewrite Hmd.
  destruct (N.eqb_spec c q); [contradiction | exact IH].
Qed.

Lemma digits_not_lt d : Forall (fun c => c <> 60) (digits d).
Proof. induction d; simpl; constructor; (discriminate || assumption). Qed.

Lemma py_str_int_not_lt z : Forall (fun c => c <> 60) (py_str_int z).
Proof.
  unfold py_str_int. destruct (Z.to_int z).
  - apply digits_not_lt.
  - constructor; [discriminate | apply digits_not_lt].
Qed.

Lemma Forall_rstrip_by (P : char -> Prop) f s : Forall P s -> Forall P (rstrip_by f s).
Proof.
  intros Hs. destruct (rstrip_by_prefix f s) as [d Hd].
  rewrite Hd in Hs. apply Forall_app in Hs. tauto.
Qed.

Lemma Forall_make_title (P : char -> Prop) p :
  P 46 -> Forall P p -> Forall P (make_title p).
Proof.
  intros Hdot Hp. unfold make_title, rstrip.
  assert (Ht : Forall P (rstrip_by (fun c => existsb (N.eqb c) (lit ".")) (firstn 80 p))).
  { apply Forall_rstrip_by. rewrite <- (firstn_skipn 80 p) in Hp.
    apply Forall_app in Hp. tauto. }
  destruct (_ <? _)%nat; [|exact Ht].
  apply Forall_app. split; [exact Ht|]. repeat constructor; exact Hdot.
Qed.

(** Run the scanner over the template literal that comes next. *)
Ltac scan_literal :=
  match goal with
  | |- context [scan (tpl ?s) ?st] =>
    lazymatch st with
    | scan _ _ => fail
    | _ => idtac
    end;
    let v := eval vm_compute in (scan (tpl s) st) in
    replace (scan (tpl s) st) with v by (vm_compute; reflexivity)
  end.

Ltac scan_hole x H :=
  match goal with
  | |- context [scan x ?st] =>
    lazymatch st with
    | scan _ _ => fail
    | _ => idtac
    end;
    first [ rewrite (scan_text x st eq_refl H)
          | rewrite (scan_quoted x 34 _ _ st eq_refl H) ]
  end.

Lemma scan_section_block p i :
  Forall (fun c => c <> 60) p -> scan (section_block p i) in_main = in_main.
Proof.
  intros Hp. pose proof (py_str_int_not_lt (i + 1)) as Hi.
  unfold section_block. rewrite !scan_app.
  repeat first [scan_literal | scan_hole p Hp | scan_hole (py_str_int (i + 1)) Hi].
  reflexivity.
Qed.

Lemma scan_section_blocks p l :
  Forall (fun c => c <> 60) p -> scan (join (map (section_block p) l)) in_main = in_main.
Proof.
  intros Hp. induction l as [|i l IH]; [reflexivity|].
  unfold join in *.
  change (scan (section_block p i ++ concat (map (section_block p) l)) in_main = in_main).
  rewrite scan_app, (scan_section_block p i Hp). exact IH.
Qed.

Lemma scan_page c t blocks :
  Forall (fun x => x <> 34) c ->
  Forall (fun x => x <> 60) t ->
  scan (join blocks) in_main = in_main ->
  scan (page (Some c) t blocks) scan_start
  = {| md := Text; open_elements := []; roots := 1; sound := true |}.
Proof.
  intros Hc Ht Hb. unfold page, format_value. rewrite !scan_app.
  repeat first
    [ scan_literal
    | scan_hole c Hc
    | scan_hole t Ht
    | match goal with
      | |- context [scan (join blocks) ?st] =>
        replace (scan (join blocks) st) with st by (symmetry; exact Hb)
      end ].
  reflexivity.
Qed.

(** C2, as the code has it.  When the stripped prompt has no [<] and the
    color has no double quote, the page returned for an accepted request is
    well formed, whatever the section count: every tag opened is closed by
    its closing tag, innermost first, and [html] is the single root. *)
Theorem html_well_formed (req : GenerateRequest) (c : pystr) :
  strip (prompt req) <> [] ->
  color req = Some c ->
  Forall (fun x => x <> 60) (strip (prompt req)) ->
  Forall (fun x => x <> 34) c ->
  exists r, generate_site req = inr r /\ well_formed (html r) = true.
Proof.
  intros Hne Hcol Hp Hc. rewrite (generate_site_accepts req Hne), Hcol.
  eexists. split; [reflexivity|]. simpl html. unfold well_formed.
  rewrite scan_page; [reflexivity | exact Hc | | ].
  - apply Forall_make_title; [discriminate | exact Hp].
  - apply scan_section_blocks. exact Hp.
Qed.

Lemma html_well_formed_bakery :
  strip (prompt bakery) <> []
  /\ color bakery = Some (lit "emerald")
  /\ Forall (fun x => x <> 60) (strip (prompt bakery))
  /\ Forall (fun x => x <> 34) (lit "emerald")
  /\ exists r, generate_site bakery = inr r /\ well_formed (html r) = true.
Proof.
  assert (H : strip (prompt bakery) <> []) by (vm_compute; discriminate).
  assert (Hp : Forall (fun x => x <> 60) (strip (prompt bakery)))
    by (vm_compute; repeat constructor; discriminate).
  assert (Hc : Forall (fun x => x <> 34) (lit "emerald"))
    by (vm_compute; repeat constructor; discriminate).
  split; [exact H|]. split; [reflexivity|]. split; [exact Hp|]. split; [exact Hc|].
  exact (html_well_formed bakery (lit "emerald") H eq_refl Hp Hc).
Defined.

(** C2 as stated fails: the prompt [<b>] is accepted, and the page then opens
    a [b] element that the heading's closing tag does not match. *)
Lemma html_unmatched_tag :
  strip (prompt open_bold) <> []
  /\ ~ (forall r, generate_site open_bold = inr r -> well_formed (html r) = true).
Proof.
  assert (Hne : strip (prompt open_bold) <> []) by (vm_compute; discriminate).
  split; [exact Hne|]. intros H.
  specialize (H _ (generate_site_accepts open_bold Hne)).
  vm_compute in H. discriminate H.
Qed.

(** ** Counting occurrences *)

Lemma starts_with_app_long m :
  forall y z, (length m <= length y)%nat -> starts_with m (y ++ z) = starts_with m y.
Proof.
  induction m as [|a m IH]; intros [|b y] z H; simpl in *; try reflexivity; try lia.
  rewrite IH by lia. reflexivity.
Qed.

Lemma starts_with_short m :
  forall y, (length y < length m)%nat -> starts_with m y = false.
Proof.
  induction m as [|a m IH]; intros [|b y] H; simpl in *; try reflexivity; try lia.
  rewrite IH by lia. apply andb_false_r.
Qed.

Lemma clash_starts m :
  forall l r, clash m l = true -> starts_with m (l ++ r) = false.
Proof.
  induction m as [|a m IH]; intros [|b l] r H; simpl in *; try discriminate.
  destruct (a =? b); simpl in *; [apply IH; exact H | reflexivity].
Qed.

Lemma starts_with_app_split :
  forall y m z, (length y < length m)%nat ->
  starts_with m (y ++ z)
  = starts_with (firstn (length y) m) y && starts_with (skipn (length y) m) z.
Proof.
  induction y as [|b y IH]; intros [|a m] z H; simpl in *; try reflexivity; try lia.
  rewrite IH by lia. apply andb_assoc.
Qed.

Lemma starts_with_app_true m :
  forall y z, starts_with m y = true -> starts_with m (y ++ z) = true.
Proof.
  induction m as [|a m IH]; intros [|b y] z H; simpl in *; try reflexivity; try discriminate.
  apply andb_true_iff in H as [H1 H2]. rewrite H1, (IH y z H2). reflexivity.
Qed.

Lemma occurrences_cons m c s :
  occurrences m (c :: s) = ((if starts_with m (c :: s) then 1 else 0) + occurrences m s)%nat.
Proof. reflexivity. Qed.

Lemma occurrences_app_right m l s :
  closed_right m l = true ->
  occurrences m (l ++ s) = (occurrences m l + occurrences m s)%nat.
Proof.
  intros H. induction l as [|c l IH]; [reflexivity|].
  cbn [closed_right] in H. apply andb_true_iff in H as [H1 H2].
  rewrite <- app_comm_cons, !occurrences_cons, (IH H2).
  assert (Hs : starts_with m (c :: l ++ s) = starts_with m (c :: l)).
  { apply orb_true_iff in H1 as [Hlen|Hcl].
    - apply Nat.leb_le in Hlen. exact (starts_with_app_long m (c :: l) s Hlen).
    - rewrite (app_comm_cons l s c), (clash_starts m (c :: l) s Hcl).
      pose proof (clash_starts m (c :: l) [] Hcl) as H0.
      rewrite app_nil_r in H0. symmetry. exact H0. }
  rewrite Hs. lia.
Qed.

Lemma occurrences_app_left m x l r :
  closed_left m l = true ->
  occurrences m (x ++ l ++ r) = (occurrences m x + occurrences m (l ++ r))%nat.
Proof.
  intros H. induction x as [|c x IH]; [reflexivity|].
  rewrite <- app_comm_cons, !occurrences_cons, IH.
  assert (Hs : starts_with m (c :: x ++ l ++ r) = starts_with m (c :: x)).
  { destruct (Nat.le_gt_cases (length m) (length (c :: x))) as [Hlen|Hlen].
    - exact (starts_with_app_long m (c :: x) (l ++ r) Hlen).
    - rewrite (app_comm_cons x (l ++ r) c), (starts_with_app_split (c :: x) m (l ++ r) Hlen).
      unfold closed_left in H. rewrite forallb_forall in H.
      rewrite (clash_starts _ l r (H (length (c :: x)) ltac:(apply in_seq; simpl in *; lia))).
      rewrite andb_false_r. symmetry. apply starts_with_short. exact Hlen. }
  rewrite Hs. lia.
Qed.

Lemma occurrences_no_head a m x :
  Forall (fun c => c <> a) x -> occurrences (a :: m) x = 0%nat.
Proof.
  intros Hx. induction Hx as [|c x Hc _ IH]; [reflexivity|].
  rewrite occurrences_cons, IH. simpl.
  destruct (N.eqb_spec a c); [congruence | reflexivity].
Qed.

Lemma occurrences_prefix m a b : (occurrences m a <= occurrences m (a ++ b))%nat.
Proof.
  induction a as [|c a IH]; [simpl; lia|].
  rewrite <- app_comm_cons, !occurrences_cons.
  destruct (starts_with m (c :: a)) eqn:Hs.
  - rewrite (app_comm_cons a b c), (starts_with_app_true m (c :: a) b Hs). lia.
  - destruct (starts_with m (c :: a ++ b)); lia.
Qed.

Lemma occurrences_marker_no_lt x :
  Forall (fun c => c <> 60) x -> occurrences section_marker x = 0%nat.
Proof.
  intros Hx.
  replace section_marker with (60 :: tl section_marker) by (vm_compute; reflexivity).
  apply occurrences_no_head. exact Hx.
Qed.

Lemma occurrences_make_title p :
  occurrences section_marker p = 0%nat -> occurrences section_marker (make_title p) = 0%nat.
Proof.
  intros Hp. unfold make_title, rstrip.
  set (t := rstrip_by _ _).
  assert (Ht : occurrences section_marker t = 0%nat).
  { destruct (rstrip_by_prefix (fun c => existsb (N.eqb c) (lit ".")) (firstn 80 p)) as [d Hd].
    fold t in Hd.
    pose proof (occurrences_prefix section_marker t d) as H1. rewrite <- Hd in H1.
    pose proof (occurrences_prefix section_marker (firstn 80 p) (skipn 80 p)) as H2.
    rewrite firstn_skipn in H2. lia. }
  destruct (_ <? _)%nat; [|exact Ht].
  rewrite <- (app_nil_r (lit "...")).
  rewrite (occurrences_app_left section_marker t (lit "...") []) by (vm_compute; reflexivity).
  rewrite Ht. vm_compute. reflexivity.
Qed.

(** The occurrences in a template literal followed by more text. *)
Ltac occ_literal :=
  match goal with
  | |- context [occurrences ?m (tpl ?s ++ ?rest)] =>
    let k := eval vm_compute in (occurrences m (tpl s)) in
    rewrite (occurrences_app_right m (tpl s) rest) by (vm_compute; reflexivity);
    replace (occurrences m (tpl s)) with k by (vm_compute; reflexivity)
  end.

(** The occurrences in an interpolated text followed by a template literal. *)
Ltac occ_hole x :=
  match goal with
  | |- context [occurrences ?m (x ++ tpl ?s ++ ?rest)] =>
    rewrite (occurrences_app_left m x (tpl s) rest) by (vm_compute; reflexivity)
  end.

Lemma occurrences_section_block p i rest :
  occurrences section_marker (section_block p i ++ rest)
  = S (occurrences section_marker p + occurrences section_marker rest).
Proof.
  pose proof (occurrences_marker_no_lt _ (py_str_int_not_lt (i + 1))) as Hi.
  unfold section_block. rewrite <- !app_assoc.
  repeat first [occ_literal | occ_hole p | occ_hole (py_str_int (i + 1))].
  rewrite Hi. lia.
Qed.

Lemma occurrences_section_blocks p l rest :
  occurrences section_marker (join (map (section_block p) l) ++ rest)
  = (length l * S (occurrences section_marker p) + occurrences section_marker rest)%nat.
Proof.
  induction l as [|i l IH]; [reflexivity|].
  unfold join in *.
  change (concat (map (section_block p) (i :: l)))
    with (section_block p i ++ concat (map (section_block p) l)).
  rewrite <- app_assoc, occurrences_section_block, IH. simpl length. lia.
Qed.

Lemma occurrences_page c t p l :
  occurrences section_marker (page (Some c) t (map (section_block p) l))
  = (8 * occurrences section_marker c + occurrences section_marker t
     + length l * S (occurrences section_marker p))%nat.
Proof.
  unfold page, format_value.
  repeat first [occ_literal | occ_hole c | occ_hole t].
  rewrite occurrences_section_blocks.
  repeat first [occ_literal | occ_hole c].
  match goal with
  | |- context [occurrences _ (c ++ tpl ?s)] => rewrite <- (app_nil_r (tpl s))
  end.
  occ_hole c. occ_literal. simpl (occurrences _ []). lia.
Qed.

Lemma page_section_blocks c t blocks : in_order [join blocks] (page c t blocks).
Proof.
  unfold page. do 15 apply in_order_skip. apply in_order_here. exact I.
Qed.

Lemma section_block_label p i :
  in_order [section_marker; section_heading (i + 1); section_copy p] (section_block p i).
Proof.
  unfold section_block.
  cut_around 9%nat section_marker. apply in_order_here.
  cut_before (tpl "<h3 class='text-2xl font-semibold text-white mb-4'>Section ").
  lazymatch goal with
  | |- in_order _ (_ ++ _ ++ tpl ?s ++ _) => cut_after s (tpl "</h3>")
  end.
  eapply in_order_at; [unfold section_heading; rewrite <- !app_assoc; reflexivity|].
  cut_before (tpl "<p class='text-slate-300 leading-relaxed'>").
  eapply in_order_at; [unfold section_copy; rewrite <- !app_assoc; reflexivity|].
  exact I.
Qed.

Lemma section_blocks_lookup p n k :
  (k < Z.to_nat n)%nat ->
  section_blocks p n !! k = Some (section_block p (Z.of_nat k)).
Proof.
  intros Hk. unfold section_blocks, py_range.
  rewrite !list_lookup_fmap, lookup_seq_lt by exact Hk. reflexivity.
Qed.

Lemma page_format_value c t blocks :
  page c t blocks = page (Some (format_value c)) t blocks.
Proof. destruct c; unfold page, format_value; reflexivity. Qed.

(** C4, as the code has it.  For every accepted request with a section
    count [n] from 1 to 6, whatever its prompt and color, the page holds the
    [n] blocks of the loop, one after the other in the order of their
    indices; block [k] (counting from 1) opens with the section marker, is
    headed [Section k] and starts its paragraph with the whole stripped
    prompt.  When neither the stripped prompt nor the color text contains the
    section marker, the marker occurs in the page exactly [n] times. *)
Theorem section_blocks_exact (req : GenerateRequest) (n : Z) :
  strip (prompt req) <> [] ->
  sections req = Some n ->
  (1 <= n <= 6)%Z ->
  exists r blocks,
    generate_site req = inr r
    /\ length blocks = Z.to_nat n
    /\ in_order [join blocks] (html r)
    /\ (forall k, (k < Z.to_nat n)%nat ->
        exists b, blocks !! k = Some b
          /\ in_order [section_marker; section_heading (Z.of_nat k + 1);
                       section_copy (strip (prompt req))] b)
    /\ (occurrences section_marker (strip (prompt req)) = 0%nat ->
        occurrences section_marker (format_value (color req)) = 0%nat ->
        occurrences section_marker (html r) = Z.to_nat n).
Proof.
  intros Hne Hsec Hn.
  rewrite (generate_site_accepts req Hne), Hsec.
  assert (Hor : sections_or (Some n) 3 = n) by (destruct n; [lia | reflexivity..]).
  rewrite Hor. eexists. exists (section_blocks (strip (prompt req)) n).
  split; [reflexivity|]. simpl html.
  split; [unfold section_blocks, py_range; rewrite !length_map, length_seq; reflexivity|].
  split; [apply page_section_blocks|].
  split.
  - intros k Hk. exists (section_block (strip (prompt req)) (Z.of_nat k)).
    split; [apply section_blocks_lookup; exact Hk | apply section_block_label].
  - intros Hp Hc. rewrite page_format_value.
    unfold section_blocks. rewrite occurrences_page, Hc, Hp.
    rewrite (occurrences_make_title _ Hp).
    unfold py_range. rewrite length_map, length_seq. lia.
Qed.

Lemma section_blocks_exact_bakery :
  strip (prompt bakery) <> []
  /\ sections bakery = Some 2%Z
  /\ (1 <= 2 <= 6)%Z
  /\ occurrences section_marker (strip (prompt bakery)) = 0%nat
  /\ occurrences section_marker (format_value (color bakery)) = 0%nat
  /\ exists r blocks,
    generate_site bakery = inr r
    /\ length blocks = Z.to_nat 2
    /\ in_order [join blocks] (html r)
    /\ (forall k, (k < Z.to_nat 2)%nat ->
        exists b, blocks !! k = Some b
          /\ in_order [section_marker; section_heading (Z.of_nat k + 1);
                       section_copy (strip (prompt bakery))] b)
    /\ occurrences section_marker (html r) = Z.to_nat 2.
Proof.
  assert (H : strip (prompt bakery) <> []) by (vm_compute; discriminate).
  assert (Hn : (1 <= 2 <= 6)%Z) by lia.
  assert (Hp : occurrences section_marker (strip (prompt bakery)) = 0%nat)
    by (vm_compute; reflexivity).
  assert (Hc : occurrences section_marker (format_value (color bakery)) = 0%nat)
    by (vm_compute; reflexivity).
  split; [exact H|]. split; [reflexivity|].
  split; [exact Hn|]. split; [exact Hp|]. split; [exact Hc|].
  destruct (section_blocks_exact bakery 2 H eq_refl Hn) as [r [bs [Hr [Hl [Ho [Hk Hm]]]]]].
  exists r, bs. split; [exact Hr|]. split; [exact Hl|]. split; [exact Ho|].
  split; [exact Hk | exact (Hm Hp Hc)].
Defined.

(** C4 as stated fails: a prompt that is itself the section marker is
    accepted, and with one section asked for the marker then occurs three
    times in the page (in the heading, in the block's own tag and in the
    block's paragraph). *)
Lemma section_marker_injected :
  strip (prompt marker_prompt) <> []
  /\ sections marker_prompt = Some 1%Z
  /\ ~ (forall r, generate_site marker_prompt = inr r ->
          occurrences section_marker (html r) = 1%nat).
Proof.
  assert (Hne : strip (prompt marker_prompt) <> []) by (vm_compute; discriminate).
  split; [exact Hne|]. split; [reflexivity|]. intros H.
  specialize (H _ (generate_site_accepts marker_prompt Hne)).
  vm_compute in H. discriminate H.
Qed.

(** * Further properties of the handlers *)

(** ** Stripping *)

Lemma lstrip_by_head f s c t : lstrip_by f s = c :: t -> f c = false.
Proof.
  induction s as [|b s IH]; simpl; [discriminate|].
  destruct (f b) eqn:Hb; [exact IH|]. intros H. injection H as -> _. exact Hb.
Qed.

Lemma lstrip_by_fixed f s : match s with [] => True | c :: _ => f c = false end ->
  lstrip_by f s = s.
Proof. destruct s as [|c s]; simpl; [reflexivity|]. intros ->. reflexivity. Qed.

Lemma lstrip_by_nil f s : lstrip_by f s = [] <-> forallb f s = true.
Proof.
  induction s as [|c s IH]; simpl; [tauto|].
  destruct (f c); simpl; [exact IH|]. split; discriminate.
Qed.

Lemma forallb_rev f (s : pystr) : forallb f (rev s) = forallb f s.
Proof.
  induction s as [|c s IH]; [reflexivity|].
  simpl. rewrite forallb_app, IH. simpl. rewrite andb_true_r. apply andb_comm.
Qed.

Lemma rstrip_by_nil f s : rstrip_by f s = [] <-> forallb f s = true.
Proof.
  unfold rstrip_by. rewrite <- (forallb_rev f s), <- lstrip_by_nil.
  split; intros H.
  - apply (f_equal (@rev char)) in H. rewrite rev_involutive in H. exact H.
  - rewrite H. reflexivity.
Qed.

Lemma rstrip_by_last f s c t : rev (rstrip_by f s) = c :: t -> f c = false.
Proof. unfold rstrip_by. rewrite rev_involutive. apply lstrip_by_head. Qed.

Lemma rstrip_by_fixed f s :
  match rev s with [] => True | c :: _ => f c = false end -> rstrip_by f s = s.
Proof.
  intros H. unfold rstrip_by. rewrite (lstrip_by_fixed f (rev s) H). apply rev_involutive.
Qed.

Lemma strip_nil s : strip s = [] <-> forallb py_isspace s = true.
Proof.
  unfold strip. rewrite rstrip_by_nil. split; intros H.
  - apply lstrip_by_nil. destruct (lstrip_by py_isspace s) as [|c t] eqn:Hl; [reflexivity|].
    apply lstrip_by_head in Hl. simpl in H. rewrite Hl in H. discriminate H.
  - apply lstrip_by_nil in H. rewrite H. reflexivity.
Qed.

Lemma strip_head s c t : strip s = c :: t -> py_isspace c = false.
Proof.
  unfold strip. intros H.
  destruct (rstrip_by_prefix py_isspace (lstrip_by py_isspace s)) as [d Hd].
  rewrite H in Hd. simpl in Hd. exact (lstrip_by_head _ _ _ _ Hd).
Qed.

Lemma strip_last s c t : rev (strip s) = c :: t -> py_isspace c = false.
Proof. unfold strip. apply rstrip_by_last. Qed.

Lemma strip_idempotent s : strip (strip s) = strip s.
Proof.
  destruct (strip s) as [|c t] eqn:Hs.
  - reflexivity.
  - unfold strip. rewrite (lstrip_by_fixed py_isspace (c :: t) (strip_head s c t Hs)).
    apply rstrip_by_fixed. destruct (rev (c :: t)) as [|d u] eqn:Hr; [exact I|].
    rewrite <- Hs in Hr. exact (strip_last s d u Hr).
Qed.

(** ** The generator *)

(** X1.  The generator rejects a request exactly when its prompt is made of
    whitespace only (the empty prompt included). *)
Theorem blank_prompt_rejected (req : GenerateRequest) :
  generate_site req = inl empty_prompt_error <-> forallb py_isspace (prompt req) = true.
Proof.
  rewrite <- strip_nil. split.
  - intros H. destruct (strip (prompt req)) as [|c t] eqn:Hp; [reflexivity|].
    assert (Hne : strip (prompt req) <> []) by (rewrite Hp; discriminate).
    rewrite (generate_site_accepts req Hne) in H. discriminate H.
  - apply generate_site_rejects.
Qed.

(** X2.  Whitespace around the prompt does not matter: the request with the
    prompt already stripped gets the same result, html and meta alike. *)
Theorem surrounding_whitespace_ignored (req : GenerateRequest) :
  generate_site {| prompt := strip (prompt req);
                   color := color req;
                   sections := sections req |}
  = generate_site req.
Proof.
  unfold generate_site. simpl prompt. simpl color. simpl sections.
  rewrite strip_idempotent. reflexivity.
Qed.

(** X3.  The prompt recorded in [meta] is never empty and neither begins nor
    ends with a whitespace character. *)
Theorem meta_prompt_trimmed (req : GenerateRequest) (r : GenerateResponse) :
  generate_site req = inr r ->
  exists q c d,
    meta r !! "prompt"%string = Some (VStr q)
    /\ head q = Some c /\ py_isspace c = false
    /\ head (rev q) = Some d /\ py_isspace d = false.
Proof.
  intros H. destruct (strip (prompt req)) as [|c t] eqn:Hp.
  - rewrite (generate_site_rejects req Hp) in H. discriminate H.
  - assert (Hne : strip (prompt req) <> []) by (rewrite Hp; discriminate).
    rewrite (generate_site_accepts req Hne) in H. injection H as <-. simpl meta.
    destruct (rev (strip (prompt req))) as [|d u] eqn:Hr.
    { apply (f_equal (@rev char)) in Hr. rewrite rev_involutive in Hr. contradiction. }
    exists (strip (prompt req)), c, d.
    split; [by simplify_map_eq|]. rewrite Hr, Hp. simpl.
    split; [reflexivity|]. split; [exact (strip_head _ _ _ Hp)|].
    split; [reflexivity | exact (strip_last _ _ _ Hr)].
Qed.

Lemma bakery_accepted : strip (prompt bakery) <> [].
Proof. vm_compute. discriminate. Qed.

Lemma meta_prompt_trimmed_bakery :
  exists r,
    generate_site bakery = inr r
    /\ exists q c d,
         meta r !! "prompt"%string = Some (VStr q)
         /\ head q = Some c /\ py_isspace c = false
         /\ head (rev q) = Some d /\ py_isspace d = false.
Proof.
  pose proof (generate_site_accepts bakery bakery_accepted) as Hr.
  eexists. split; [exact Hr | exact (meta_prompt_trimmed bakery _ Hr)].
Defined.

Lemma make_title_shape p :
  (length (make_title p) <= 83)%nat
  /\ (make_title p = p
      \/ exists u d, make_title p = u ++ lit "..." /\ p = u ++ d /\ d <> []
                     /\ head (rev u) <> Some 46).
Proof.
  unfold make_title, rstrip.
  set (f := fun c : char => existsb (N.eqb c) (lit ".")).
  set (t := rstrip_by f (firstn 80 p)).
  pose proof (rstrip_by_length f (firstn 80 p)) as Hle. fold t in Hle.
  rewrite length_firstn in Hle.
  destruct (rstrip_by_prefix f (firstn 80 p)) as [d Hd]. fold t in Hd.
  assert (Hp : p = t ++ (d ++ skipn 80 p)).
  { rewrite app_assoc, <- Hd. symmetry. apply firstn_skipn. }
  destruct (Nat.ltb_spec (length t) (length p)) as [Hlt|Hge]; cbv iota.
  - split; [rewrite length_app; simpl; lia|]. right.
    exists t, (d ++ skipn 80 p). split; [reflexivity|]. split; [exact Hp|]. split.
    + intros Hnil. rewrite Hnil, app_nil_r in Hp. rewrite <- Hp in Hlt. lia.
    + destruct (rev t) as [|c u] eqn:Hr; [discriminate|].
      apply (rstrip_by_last f) in Hr. simpl. intros [= ->]. discriminate Hr.
  - split; [lia|]. left.
    destruct (d ++ skipn 80 p) as [|x y].
    + rewrite app_nil_r in Hp. symmetry. exact Hp.
    + apply (f_equal (@length char)) in Hp. rewrite length_app in Hp. simpl in Hp. lia.
Qed.

(** X4.  The title in the hero heading has at most 83 characters, whatever
    the length of the prompt; it is the stripped prompt itself, or a proper
    beginning of it that does not end with a period, followed by the
    ellipsis. *)
Theorem title_bounded (req : GenerateRequest) :
  strip (prompt req) <> [] ->
  exists r t,
    generate_site req = inr r
    /\ html r = page (color req) t
                  (section_blocks (strip (prompt req)) (sections_or (sections req) 3))
    /\ in_order [hero_heading t] (html r)
    /\ (length t <= 83)%nat
    /\ (t = strip (prompt req)
        \/ exists u d, t = u ++ lit "..." /\ strip (prompt req) = u ++ d /\ d <> []
                       /\ head (rev u) <> Some 46).
Proof.
  intros Hne. rewrite (generate_site_accepts req Hne).
  eexists. exists (make_title (strip (prompt req))).
  split; [reflexivity|]. split; [reflexivity|]. split; [apply page_hero_heading|].
  apply make_title_shape.
Qed.

Lemma title_bounded_bakery :
  strip (prompt bakery) <> []
  /\ exists r t,
    generate_site bakery = inr r
    /\ html r = page (color bakery) t
                  (section_blocks (strip (prompt bakery)) (sections_or (sections bakery) 3))
    /\ in_order [hero_heading t] (html r)
    /\ (length t <= 83)%nat
    /\ (t = strip (prompt bakery)
        \/ exists u d, t = u ++ lit "..." /\ strip (prompt bakery) = u ++ d /\ d <> []
                       /\ head (rev u) <> Some 46).
Proof. split; [exact bakery_accepted | exact (title_bounded bakery bakery_accepted)]. Defined.

Lemma ends_with_skip x a s : ends_with x s -> ends_with x (a ++ s).
Proof. intros [b ->]. exists (a ++ b). apply app_assoc. Qed.

Lemma page_frame c t blocks :
  starts_with (tpl "<!DOCTYPE html>
<html lang='en'>") (page c t blocks) = true
  /\ ends_with (tpl "</body>
</html>") (page c t blocks).
Proof.
  unfold page. split.
  - apply starts_with_app_true. vm_compute. reflexivity.
  - do 20 apply ends_with_skip.
    lazymatch goal with
    | |- ends_with ?x (tpl ?s) =>
      let a := eval vm_compute in (firstn (length (tpl s) - length x) (tpl s)) in
      exists a; vm_compute; reflexivity
    end.
Qed.

(** X5.  Whatever the prompt, the color and the section count of an accepted
    request, the page begins with the doctype and the opening [html] tag and
    ends with the closing [body] and [html] tags: no input can put text
    before or after the document. *)
Theorem html_framed (req : GenerateRequest) :
  strip (prompt req) <> [] ->
  exists r,
    generate_site req = inr r
    /\ starts_with (tpl "<!DOCTYPE html>
<html lang='en'>") (html r) = true
    /\ ends_with (tpl "</body>
</html>") (html r).
Proof.
  intros Hne. rewrite (generate_site_accepts req Hne).
  eexists. split; [reflexivity|]. apply page_frame.
Qed.

Lemma html_framed_bakery :
  strip (prompt bakery) <> []
  /\ exists r,
    generate_site bakery = inr r
    /\ starts_with (tpl "<!DOCTYPE html>
<html lang='en'>") (html r) = true
    /\ ends_with (tpl "</body>
</html>") (html r).
Proof. split; [exact bakery_accepted | exact (html_framed bakery bakery_accepted)]. Defined.

Lemma page_null_color t blocks :
  page None t blocks = page (Some (lit "None")) t blocks.
Proof. unfold page, format_value. reflexivity. Qed.

(** X6.  An explicit null color is not replaced by the default: the text
    [None] is written into the three color places of the page, and [meta]
    records the color as [None]. *)
Theorem null_color_rendered (req : GenerateRequest) :
  strip (prompt req) <> [] ->
  color req = None ->
  exists r,
    generate_site req = inr r
    /\ meta r !! "color"%string = Some VNone
    /\ in_order [nav_accent (lit "None"); primary_button (lit "None");
                 footer_link (lit "None")] (html r).
Proof.
  intros Hne Hc. rewrite (generate_site_accepts req Hne), Hc.
  eexists. split; [reflexivity|]. split; [by simplify_map_eq|]. simpl html.
  rewrite page_null_color. apply page_color_sites.
Qed.

Lemma null_color_rendered_example :
  strip (prompt null_color) <> []
  /\ color null_color = None
  /\ exists r,
    generate_site null_color = inr r
    /\ meta r !! "color"%string = Some VNone
    /\ in_order [nav_accent (lit "None"); primary_button (lit "None");
                 footer_link (lit "None")] (html r).
Proof.
  assert (H : strip (prompt null_color) <> []) by (vm_compute; discriminate).
  split; [exact H|]. split; [reflexivity|].
  exact (null_color_rendered null_color H eq_refl).
Defined.

(** X7.  The number of occurrences of the section marker in the page of an
    accepted request, for every prompt and color text: one for each block of
    the loop, plus what the prompt brings in through the title and through
    each block, plus what the color brings in at its eight places. *)
Theorem section_marker_count (req : GenerateRequest) (c : pystr) :
  strip (prompt req) <> [] ->
  color req = Some c ->
  exists r,
    generate_site req = inr r
    /\ occurrences section_marker (html r)
       = (8 * occurrences section_marker c
          + occurrences section_marker (make_title (strip (prompt req)))
          + Z.to_nat (sections_or (sections req) 3)
            * S (occurrences section_marker (strip (prompt req))))%nat.
Proof.
  intros Hne Hc. rewrite (generate_site_accepts req Hne), Hc.
  eexists. split; [reflexivity|]. simpl html.
  unfold section_blocks. rewrite occurrences_page.
  unfold py_range. rewrite length_map, length_seq. reflexivity.
Qed.

Lemma section_marker_count_example :
  strip (prompt marker_prompt) <> []
  /\ color marker_prompt = Some (lit "indigo")
  /\ exists r,
    generate_site marker_prompt = inr r
    /\ occurrences section_marker (html r) = 3%nat.
Proof.
  assert (H : strip (prompt marker_prompt) <> []) by (vm_compute; discriminate).
  split; [exact H|]. split; [reflexivity|].
  destruct (section_marker_count marker_prompt (lit "indigo") H eq_refl) as [r [Hr Ho]].
  exists r. split; [exact Hr|]. rewrite Ho. vm_compute. reflexivity.
Defined.

(** ** The size of the page *)

Ltac literal_lengths :=
  repeat match goal with
  | |- context [length (tpl ?s)] =>
    let k := eval vm_compute in (length (tpl s)) in
    replace (length (tpl s)) with k by (vm_compute; reflexivity)
  end.

Lemma length_page c t blocks :
  length (page (Some c) t blocks)
  = (2729 + 8 * length c + length t + length (join blocks))%nat.
Proof. unfold page, format_value. rewrite !length_app. literal_lengths. lia. Qed.

Lemma length_section_block p i :
  length (section_block p i)
  = (385 + length p + 2 * length (py_str_int (i + 1)))%nat.
Proof. unfold section_block. rewrite !length_app. literal_lengths. lia. Qed.

Lemma length_one_digit i : (0 <= i < 9)%Z -> length (py_str_int (i + 1)) = 1%nat.
Proof.
  intros H.
  assert (Hi : i = 0%Z \/ i = 1%Z \/ i = 2%Z \/ i = 3%Z \/ i = 4%Z \/ i = 5%Z
               \/ i = 6%Z \/ i = 7%Z \/ i = 8%Z) by lia.
  repeat destruct Hi as [->|Hi]; try subst i; reflexivity.
Qed.

Lemma length_section_blocks p l :
  Forall (fun i => (0 <= i < 9)%Z) l ->
  length (join (map (section_block p) l)) = (length l * (387 + length p))%nat.
Proof.
  intros Hl. induction Hl as [|i l Hi _ IH]; [reflexivity|].
  unfold join in *.
  change (concat (map (section_block p) (i :: l)))
    with (section_block p i ++ concat (map (section_block p) l)).
  rewrite length_app, IH, length_section_block, (length_one_digit i Hi). simpl length. lia.
Qed.

(** X8.  The size of the page of an accepted request with a color text and a
    section count [n] from 1 to 6: 2729 characters of fixed text, the color
    eight times, the title once, and 387 characters and the stripped prompt
    for each of the [n] blocks. *)
Theorem html_length (req : GenerateRequest) (c : pystr) (n : Z) :
  strip (prompt req) <> [] ->
  color req = Some c ->
  sections req = Some n ->
  (1 <= n <= 6)%Z ->
  exists r,
    generate_site req = inr r
    /\ length (html r)
       = (2729 + 8 * length c + length (make_title (strip (prompt req)))
          + Z.to_nat n * (387 + length (strip (prompt req))))%nat.
Proof.
  intros Hne Hc Hs Hn. rewrite (generate_site_accepts req Hne), Hc, Hs.
  assert (Hor : sections_or (Some n) 3 = n) by (destruct n; [lia | reflexivity..]).
  rewrite Hor. eexists. split; [reflexivity|]. simpl html.
  unfold section_blocks. rewrite length_page, length_section_blocks.
  - unfold py_range. rewrite length_map, length_seq. reflexivity.
  - unfold py_range. apply Forall_forall. intros i Hi.
    apply list_elem_of_In, in_map_iff in Hi as [k [<- Hk]]. apply in_seq in Hk. lia.
Qed.

Lemma html_length_bakery :
  strip (prompt bakery) <> []
  /\ color bakery = Some (lit "emerald")
  /\ sections bakery = Some 2%Z
  /\ (1 <= 2 <= 6)%Z
  /\ exists r, generate_site bakery = inr r /\ length (html r) = 3625%nat.
Proof.
  assert (Hn : (1 <= 2 <= 6)%Z) by lia.
  split; [exact bakery_accepted|]. split; [reflexivity|]. split; [reflexivity|].
  split; [exact Hn|].
  destruct (html_length bakery (lit "emerald") 2 bakery_accepted eq_refl eq_refl Hn)
    as [r [Hr Hl]].
  exists r. split; [exact Hr|]. rewrite Hl. vm_compute. reflexivity.
Defined.

(** ** More on the database probe *)

Ltac probe_cases imp :=
  unfold test_database; simpl import_db;
  destruct imp as [[[] m]|[[[[[] m]|[v|]] [[[] m']|cols]]|]];
  cbv [try_except eval then_ assign except_Exception except_ImportError_then name_or
       getattr_name list_collection_names exc_class_of exc_str getenv environ].

(** X9.  The record of the probe always has the same six keys, and its
    [backend] field always says that the backend is running. *)
Theorem test_database_keys (w : World) :
  exists r,
    test_database w = inr r
    /\ dom r = ({[ "backend"; "database"; "database_url"; "database_name";
                   "connection_status"; "collections" ]}%string : gset string)
    /\ r !! "backend"%string = Some (VStr (lit "✅ Running")).
Proof.
  destruct w as [imp env]. probe_cases imp.
  all: eexists; split; [reflexivity|]; split; [|by simplify_map_eq].
  all: rewrite !dom_insert_L, dom_singleton_L; set_solver.
Qed.

(** X10.  The probe reports [Connected] exactly when the import gave a
    handle and reading its name did not fail, also when listing the
    collections fails afterwards; in every other case the field keeps
    [Not Connected]. *)
Theorem test_database_connection_status (w : World) :
  exists r,
    test_database w = inr r
    /\ r !! "connection_status"%string = Some (VStr
         match import_db w with
         | inr (Some db) =>
           match getattr_name db with
           | inr _ => lit "Connected"
           | inl _ => lit "Not Connected"
           end
         | _ => lit "Not Connected"
         end).
Proof.
  destruct w as [imp env]. probe_cases imp.
  all: eexists; split; [reflexivity|]; by simplify_map_eq.
Qed.

(** X11.  The [collections] field holds at most ten names: the first ten the
    handle lists when the listing is reached and succeeds, and none
    otherwise. *)
Theorem test_database_collections (w : World) :
  exists r cols,
    test_database w = inr r
    /\ r !! "collections"%string = Some (VList cols)
    /\ (length cols <= 10)%nat
    /\ cols = match import_db w with
              | inr (Some db) =>
                match getattr_name db, list_collection_names db with
                | inr _, inr names => firstn 10 names
                | _, _ => []
                end
              | _ => []
              end.
Proof.
  destruct w as [imp env]. probe_cases imp.
  all: eexists; eexists; split; [reflexivity|]; split; [by simplify_map_eq|].
  all: split; [|reflexivity]; rewrite ?length_firstn; simpl length; lia.
Qed.

(** X12.  The status text of the [database] field has at most 75
    characters, however long the message of the exception: the message is
    cut after 50 characters. *)
Theorem test_database_status_bounded (w : World) :
  exists r s,
    test_database w = inr r
    /\ r !! "database"%string = Some (VStr s)
    /\ (length s <= 75)%nat.
Proof.
  destruct w as [imp env]. probe_cases imp.
  all: eexists; eexists; split; [reflexivity|]; split;
    [repeat first [rewrite lookup_insert_eq | rewrite lookup_insert_ne by discriminate];
     reflexivity|].
  all: rewrite ?length_app, ?length_firstn;
    repeat match goal with
    | |- context [length (lit ?s)] =>
      let k := eval vm_compute in (length (lit s)) in
      replace (length (lit s)) with k by (vm_compute; reflexivity)
    end; lia.
Qed.
